(** * School fees analytics: the cleaning and aggregation pipeline of main.py

    A shallow embedding of [clean_data], [get_data_by_date],
    [create_time_summaries], [display_payment_summary_table] and of the
    pivot and dashboard-total code of [main], followed by the properties
    the specification states about them.

    Modelling choices, once and for all:
    - a spreadsheet cell is a value of [cell]; a missing value (None, NaN,
      NaT) is [CNull];
    - amounts are exact integers ([Z]); binary floating point rounding is
      outside the model;
    - text is a [string] of ASCII characters, and [str.upper] acts on the
      letters a..z;
    - pandas raising an exception is a [Raise] result;
    - the one DataFrame that is shared between [main] and
      [create_time_summaries] lives in a store indexed by references. *)

From stdpp Require Import gmap.
From Stdlib Require Import ZArith String Ascii List Bool Lia Sorted Permutation.
From Stdlib Require Import DecimalString OrderedTypeEx.
Import ListNotations.
Local Open Scope string_scope.
Local Open Scope Z_scope.

(** ** Results and exceptions *)

Inductive exn : Type :=
| IndexError
| KeyError (key : string)
| ValueError (msg : string)
| TypeError (msg : string).

Inductive result (A : Type) : Type :=
| Ok (a : A)
| Raise (e : exn).
Arguments Ok {A} a.
Arguments Raise {A} e.

Definition rbind {A B} (m : result A) (f : A -> result B) : result B :=
  match m with
  | Ok a => f a
  | Raise e => Raise e
  end.

Notation "'let*' x ':=' m 'in' k" := (rbind m (fun x => k))
  (at level 10, x name, m at level 100, k at level 200).

(** ** Cells, dates and records *)

Record date : Type := mkDate { d_year : Z; d_month : Z; d_day : Z }.

(** A pandas Timestamp: a calendar date and the seconds elapsed in that day. *)
Record Timestamp : Type := mkTimestamp { ts_date : date; ts_seconds : Z }.

Inductive cell : Type :=
| CNull
| CNum (z : Z)
| CStr (s : string)
| CDate (t : Timestamp).

Inductive PaymentType : Type := CASH | ONLINE | OTHER.

Definition pt_label (t : PaymentType) : string :=
  match t with
  | CASH => "CASH"
  | ONLINE => "ONLINE"
  | OTHER => "OTHER"
  end.

Record CleanRecord : Type := mkRecord {
  source : list cell;
  feesPaidDate : option Timestamp;
  paymentType : PaymentType;
  paidAmount : Z
}.

(** A raw sheet as [pd.read_excel] returns it: [df.iloc[i]] is the [i]-th
    element; a row shorter than the sheet reads as missing values. *)
Definition RawFrame : Type := list (list cell).

Definition date_eqb (a b : date) : bool :=
  (d_year a =? d_year b) && (d_month a =? d_month b) && (d_day a =? d_day b).

(** ** Text: [str(x)] and [str.upper] *)

Definition is_lower (c : ascii) : bool :=
  let n := N_of_ascii c in (97 <=? n)%N && (n <=? 122)%N.

Definition is_upper (c : ascii) : bool :=
  let n := N_of_ascii c in (65 <=? n)%N && (n <=? 90)%N.

Definition upper_char (c : ascii) : ascii :=
  if is_lower c then ascii_of_N (N_of_ascii c - 32) else c.

Definition lower_char (c : ascii) : ascii :=
  if is_upper c then ascii_of_N (N_of_ascii c + 32) else c.

Fixpoint smap (f : ascii -> ascii) (s : string) : string :=
  match s with
  | EmptyString => EmptyString
  | String c s' => String (f c) (smap f s')
  end.

(** [s.upper()] *)
Definition upper (s : string) : string := smap upper_char s.

(** Case folding, used only to state what "case-insensitively equal" means. *)
Definition casefold (s : string) : string := smap lower_char s.


(** [str(n)] for an integer. *)
Definition str_of_Z (z : Z) : string := NilZero.string_of_int (Z.to_int z).

Definition pad2 (z : Z) : string :=
  if z <? 10 then "0" ++ str_of_Z z else str_of_Z z.

(** [str(t)] for a timestamp: "YYYY-MM-DD HH:MM:SS". *)
Definition str_of_Timestamp (t : Timestamp) : string :=
  let d := ts_date t in
  let s := ts_seconds t in
  str_of_Z (d_year d) ++ "-" ++ pad2 (d_month d) ++ "-" ++ pad2 (d_day d) ++ " "
  ++ pad2 (s / 3600) ++ ":" ++ pad2 ((s / 60) mod 60) ++ ":" ++ pad2 (s mod 60).

(** [str(x)] on the values left after [fillna]. *)
Definition py_str (c : cell) : string :=
  match c with
  | CNull => "nan"
  | CNum z => str_of_Z z
  | CStr s => s
  | CDate t => str_of_Timestamp t
  end.

(** ** clean_data *)

(** [Series.fillna(v)] on one element. *)
Definition fillna (v : cell) (c : cell) : cell :=
  match c with
  | CNull => v
  | _ => c
  end.

(** The lambda of lines 19-20. *)
Definition classify (x : cell) : PaymentType :=
  if String.eqb (upper (py_str x)) "CASH" then CASH
  else if String.eqb (upper (py_str x)) "ONLINE" then ONLINE
  else OTHER.

(** Lines 17-21 on one "Payment Details" value. *)
Definition payment_type_of (details : cell) : PaymentType :=
  classify (fillna (CStr "OTHER") details).

(** Positions of the columns labelled [name]. *)
Fixpoint positions (name : string) (labels : list cell) (i : nat) : list nat :=
  match labels with
  | [] => []
  | l :: ls =>
      match l with
      | CStr s => if String.eqb s name then i :: positions name ls (S i)
                  else positions name ls (S i)
      | _ => positions name ls (S i)
      end
  end.

(** [df[name]] when it is used as a Series: a missing label is a KeyError;
    a label carried by several columns selects a DataFrame, which every use
    in [clean_data] rejects. *)
Definition series (labels : list cell) (name : string) (rows : list (list cell))
  : result (list cell) :=
  match positions name labels 0 with
  | [] => Raise (KeyError name)
  | [j] => Ok (map (fun r => nth j r CNull) rows)
  | _ => Raise (TypeError name)
  end.

Section Cleaning.

(** The parsers of pandas are taken as given: [datetime_of col c] is what
    [pd.to_datetime(col, errors='coerce')] makes of the non-missing cell
    [c] of column [col] (None when it cannot be parsed), and
    [numeric_of s] is the number [pd.to_numeric] reads from the text [s]. *)
Variable datetime_of : list cell -> cell -> option Timestamp.
Variable numeric_of : string -> option Z.

(** [pd.to_datetime(col, errors='coerce')] *)
Definition to_datetime (col : list cell) : list (option Timestamp) :=
  map (fun c => match c with
                | CNull => None
                | _ => datetime_of col c
                end) col.

(** [pd.to_numeric(_, errors='coerce')] on one element: NaN is [None]. *)
Definition to_numeric (c : cell) : option Z :=
  match c with
  | CNull => None
  | CNum z => Some z
  | CStr s => numeric_of s
  | CDate _ => None
  end.

(** [pd.to_numeric(_, errors='coerce').fillna(0)] on one element. *)
Definition coerceAmount (c : cell) : Z :=
  match to_numeric c with
  | Some z => z
  | None => 0
  end.

Fixpoint assemble (rows : list (list cell)) (dates : list (option Timestamp))
         (types : list PaymentType) (amounts : list Z) : list CleanRecord :=
  match rows, dates, types, amounts with
  | r :: rows', d :: dates', t :: types', a :: amounts' =>
      mkRecord r d t a :: assemble rows' dates' types' amounts'
  | _, _, _, _ => []
  end.

(** Lines 12-24. Row 1 becomes the column labels and the rows from 2 on are
    the data. When the sheet already has several columns labelled "Payment
    Type", line 18 selects a DataFrame and storing what [apply] makes of it
    is refused. *)
Definition clean_data (df : RawFrame) : result (list CleanRecord) :=
  match nth_error df 1 with
  | None => Raise IndexError
  | Some columns =>
      let df := skipn 2 df in
      let* dates := series columns "Fees Paid Date" df in
      let dates := to_datetime dates in
      let* details := series columns "Payment Details" df in
      match positions "Payment Type" columns 0 with
      | _ :: _ :: _ => Raise (TypeError "Payment Type")
      | _ =>
          let types := map payment_type_of details in
          let* amounts := series columns "Paid Amount" df in
          let amounts := map coerceAmount amounts in
          Ok (assemble df dates types amounts)
      end
  end.

End Cleaning.

(** ** Group keys and their order

    pandas sorts group keys; text keys compare as Python strings do, tuples
    lexicographically. *)

Class KeyOrder (K : Type) : Type := key_cmp : K -> K -> comparison.

#[export] Instance Z_KeyOrder : KeyOrder Z := Z.compare.
#[export] Instance string_KeyOrder : KeyOrder string := String.compare.
#[export] Instance PaymentType_KeyOrder : KeyOrder PaymentType :=
  fun a b => String.compare (pt_label a) (pt_label b).
#[export] Instance pair_KeyOrder {A B} `{KeyOrder A} `{KeyOrder B} : KeyOrder (A * B) :=
  fun x y =>
    match key_cmp (fst x) (fst y) with
    | Eq => key_cmp (snd x) (snd y)
    | c => c
    end.

(** What sorting and grouping need of a key order. *)
Class KeyOrderLaws (K : Type) `{KeyOrder K} : Prop := {
  key_cmp_eq : forall a b : K, key_cmp a b = Eq -> a = b;
  key_cmp_refl : forall a : K, key_cmp a a = Eq;
  key_cmp_antisym : forall a b : K, key_cmp a b = CompOpp (key_cmp b a);
  key_cmp_trans : forall a b c : K,
      key_cmp a b = Lt -> key_cmp b c = Lt -> key_cmp a c = Lt
}.

Definition key_lt {K} `{KeyOrder K} (a b : K) : Prop := key_cmp a b = Lt.

Section GroupBy.

Context {K V : Type} `{KeyOrder K}.

Definition key_eqb (a b : K) : bool :=
  match key_cmp a b with
  | Eq => true
  | _ => false
  end.

Fixpoint insert_key (k : K) (ks : list K) : list K :=
  match ks with
  | [] => [k]
  | h :: t =>
      match key_cmp k h with
      | Lt => k :: ks
      | Eq => ks
      | Gt => h :: insert_key k t
      end
  end.

(** The distinct keys, ascending. *)
Definition sorted_keys (ks : list K) : list K := fold_right insert_key [] ks.

(** The values of the rows that carry key [k], in row order. *)
Definition members (k : K) (rows : list (K * V)) : list V :=
  map snd (filter (fun kv => key_eqb (fst kv) k) rows).

(** [groupby(keys)] with the defaults [sort=True]: one group per distinct
    key, ascending. Rows with a missing key never reach this function. *)
Definition groupby (rows : list (K * V)) : list (K * list V) :=
  map (fun k => (k, members k rows)) (sorted_keys (map fst rows)).

Fixpoint assoc (k : K) (l : list (K * V)) : option V :=
  match l with
  | [] => None
  | (k', v) :: l' => if key_eqb k' k then Some v else assoc k l'
  end.

End GroupBy.

Definition zsum (l : list Z) : Z := fold_right Z.add 0 l.

(** [groupby(keys)[col].sum()] *)
Definition grouped_sum {K} `{KeyOrder K} (rows : list (K * Z)) : list (K * Z) :=
  map (fun g => (fst g, zsum (snd g))) (groupby rows).

(** ** get_data_by_date *)

(** [.dt.date] on one element. *)
Definition dt_date (t : option Timestamp) : option date := option_map ts_date t.

Definition on_date (selected_date : date) (r : CleanRecord) : bool :=
  match dt_date (feesPaidDate r) with
  | Some d => date_eqb d selected_date
  | None => false
  end.

Definition get_data_by_date (df : list CleanRecord) (selected_date : date)
  : list CleanRecord :=
  filter (on_date selected_date) df.

(** ** display_payment_summary_table

    The [summary] frame of line 66-67: payment type, total amount, number of
    transactions. The rest of the function renders it. *)

Record SummaryRow : Type := mkSummary {
  sm_type : PaymentType;
  sm_total : Z;
  sm_count : nat
}.

Definition display_payment_summary_table (df : list CleanRecord) (date : option date)
  : list SummaryRow :=
  let df := match date with
            | Some d => filter (on_date d) df
            | None => df
            end in
  map (fun g => mkSummary (fst g) (zsum (snd g)) (length (snd g)))
      (groupby (map (fun r => (paymentType r, paidAmount r)) df)).

(** ** Dashboard totals (lines 228-229) *)



(** ** Calendar: ISO week numbers and month names *)

Definition is_leap (y : Z) : bool :=
  (y mod 4 =? 0) && (negb (y mod 100 =? 0) || (y mod 400 =? 0)).

Definition days_before_year (y : Z) : Z :=
  let p := y - 1 in p * 365 + p / 4 - p / 100 + p / 400.

Definition days_before_month (y m : Z) : Z :=
  nth (Z.to_nat m) [0; 0; 31; 59; 90; 120; 151; 181; 212; 243; 273; 304; 334] 0
  + (if (2 <? m) && is_leap y then 1 else 0).

(** Proleptic Gregorian ordinal of a date; day 1 is a Monday. *)
Definition ordinal (d : date) : Z :=
  days_before_year (d_year d) + days_before_month (d_year d) (d_month d) + d_day d.

(** Ordinal of the Monday that starts ISO week 1 of year [y]. *)
Definition isoweek1monday (y : Z) : Z :=
  let firstday := ordinal (mkDate y 1 1) in
  let firstweekday := (firstday + 6) mod 7 in
  let week1monday := firstday - firstweekday in
  if 3 <? firstweekday then week1monday + 7 else week1monday.

(** [.dt.isocalendar().week] for one date. *)
Definition iso_week (d : date) : Z :=
  let today := ordinal d in
  let week := (today - isoweek1monday (d_year d)) / 7 in
  if week <? 0 then (today - isoweek1monday (d_year d - 1)) / 7 + 1
  else if (52 <=? week) && (isoweek1monday (d_year d + 1) <=? today) then 1
  else week + 1.

Definition month_names : list string :=
  [""; "January"; "February"; "March"; "April"; "May"; "June"; "July";
   "August"; "September"; "October"; "November"; "December"].

(** [calendar.month_name[i]]: thirteen entries, negative indices count from
    the end. *)
Definition month_name (i : Z) : result string :=
  let j := if i <? 0 then i + 13 else i in
  if (0 <=? j) && (j <? 13) then Ok (nth (Z.to_nat j) month_names "")
  else Raise IndexError.

(** ** Summary frames: named columns over rows of cells *)

Record Frame : Type := mkFrame { columns : list string; rows : list (list cell) }.

(** [DataFrame.insert(0, level, ...)] for each index level, last level
    first; a label that is already a column is refused. *)
Fixpoint insert_levels (levels : list string) (cols : list string)
  : result (list string) :=
  match levels with
  | [] => Ok cols
  | l :: ls =>
      let* cols' := insert_levels ls cols in
      if existsb (String.eqb l) cols'
      then Raise (ValueError ("cannot insert " ++ l ++ ", already exists"))
      else Ok (l :: cols')
  end.

(** [Series.reset_index()] of a grouped sum named [name] whose index levels
    are named [levels]: the sum is the one column to start with, and the
    levels are inserted in front of it. A level given as a Series is named
    after that Series. *)
Definition reset_index (levels : list string) (name : string)
           (groups : list (list cell)) : result Frame :=
  let* cols := insert_levels levels [name] in
  Ok (mkFrame cols groups).

Fixpoint index_of (name : string) (cols : list string) : option nat :=
  match cols with
  | [] => None
  | c :: cs => if String.eqb c name then Some O
               else option_map S (index_of name cs)
  end.

(** [x[name]] on a row of a frame. *)
Definition getitem (cols : list string) (x : list cell) (name : string) : result cell :=
  match index_of name cols with
  | Some j => Ok (nth j x CNull)
  | None => Raise (KeyError name)
  end.

(** [int(v)] *)
Definition py_int (v : cell) : result Z :=
  match v with
  | CNum z => Ok z
  | CStr s => match NilZero.int_of_string s with
              | Some d => Ok (Z.of_int d)
              | None => Raise (ValueError "invalid literal for int()")
              end
  | _ => Raise (TypeError "int()")
  end.

(** The lambda of line 41. *)
Definition month_label (cols : list string) (x : list cell) : result string :=
  let* m := getitem cols x "Month" in
  let* m := py_int m in
  let* name := month_name m in
  let* y := getitem cols x "Year" in
  let* y := py_int y in
  Ok (name ++ " " ++ str_of_Z y).

(** The lambda of line 54. *)
Definition week_label (cols : list string) (x : list cell) : result string :=
  let* w := getitem cols x "Week" in
  let* w := py_int w in
  let* y := getitem cols x "Year" in
  let* y := py_int y in
  Ok ("Week " ++ str_of_Z w ++ ", " ++ str_of_Z y).

Fixpoint apply_rows (f : list cell -> result string) (rs : list (list cell))
  : result (list string) :=
  match rs with
  | [] => Ok []
  | x :: rs' =>
      let* v := f x in
      let* vs := apply_rows f rs' in
      Ok (v :: vs)
  end.

(** [frame['Period'] = frame.apply(label, axis=1)] *)
Definition with_period (label : list string -> list cell -> result string)
           (f : Frame) : result Frame :=
  let* labels := apply_rows (label (columns f)) (rows f) in
  Ok (mkFrame (columns f ++ ["Period"])%list
              (map (fun xl => (fst xl ++ [CStr (snd xl)])%list) (combine (rows f) labels))).

(** ** create_time_summaries *)

(** The cleaned dataset as an object: its records and, once line 46 has
    run, its "Week" column. *)
Record DataFrame : Type := mkDataFrame {
  df_records : list CleanRecord;
  df_Week : option (list (option Z))
}.

(** [.dt.year], [.dt.month] and the ISO week of one record. *)
Definition dt_year (r : CleanRecord) : option Z :=
  option_map (fun t => d_year (ts_date t)) (feesPaidDate r).

Definition dt_month (r : CleanRecord) : option Z :=
  option_map (fun t => d_month (ts_date t)) (feesPaidDate r).

Definition dt_week (r : CleanRecord) : option Z :=
  option_map (fun t => iso_week (ts_date t)) (feesPaidDate r).

(** Keyed rows of the monthly [groupby]; a row with a missing key component
    is dropped ([dropna=True]). *)
Definition monthly_keyed (df : list CleanRecord) : list (Z * Z * PaymentType * Z) :=
  flat_map (fun r => match dt_year r, dt_month r with
                     | Some y, Some m => [((y, m, paymentType r), paidAmount r)]
                     | _, _ => []
                     end) df.

(** Lines 34-38 up to [.sum()]. *)
Definition monthly_groups (df : list CleanRecord) : list (Z * Z * PaymentType * Z) :=
  grouped_sum (monthly_keyed df).

Definition weekly_keyed (df : list CleanRecord) (week : list (option Z))
  : list (Z * Z * PaymentType * Z) :=
  flat_map (fun rw => match dt_year (fst rw), snd rw with
                      | Some y, Some w => [((y, w, paymentType (fst rw)), paidAmount (fst rw))]
                      | _, _ => []
                      end) (combine df week).

(** Lines 47-51 up to [.sum()]. *)
Definition weekly_groups (df : list CleanRecord) (week : list (option Z))
  : list (Z * Z * PaymentType * Z) :=
  grouped_sum (weekly_keyed df week).

Definition group_cells (g : Z * Z * PaymentType * Z) : list cell :=
  match g with
  | (a, b, t, s) => [CNum a; CNum b; CStr (pt_label t); CNum s]
  end.

(** Lines 34-43. Both date-derived keys are Series named "Fees Paid Date". *)
Definition monthly_summary (df : list CleanRecord) : result Frame :=
  let* f := reset_index ["Fees Paid Date"; "Fees Paid Date"; "Payment Type"]
                        "Paid Amount" (map group_cells (monthly_groups df)) in
  with_period month_label f.

(** Lines 47-56. *)
Definition weekly_summary (df : list CleanRecord) (week : list (option Z))
  : result Frame :=
  let* f := reset_index ["Fees Paid Date"; "Week"; "Payment Type"]
                        "Paid Amount" (map group_cells (weekly_groups df week)) in
  with_period week_label f.

(** Line 46: [df['Week'] = ...] on the object the reference denotes. *)
Definition attach_week (df : nat) (h : gmap nat DataFrame) : gmap nat DataFrame :=
  match h !! df with
  | Some f => <[df := mkDataFrame (df_records f) (Some (map dt_week (df_records f)))]> h
  | None => h
  end.

(** The function takes the reference [df] it was called with; an exception
    leaves the store as it is at that point. *)
Definition create_time_summaries (df : nat) (h : gmap nat DataFrame)
  : result (Frame * Frame) * gmap nat DataFrame :=
  match h !! df with
  | None => (Raise (KeyError "df"), h)
  | Some f =>
      match monthly_summary (df_records f) with
      | Raise e => (Raise e, h)
      | Ok monthly =>
          let h := attach_week df h in
          match h !! df with
          | Some (mkDataFrame recs (Some week)) =>
              match weekly_summary recs week with
              | Raise e => (Raise e, h)
              | Ok weekly => (Ok (monthly, weekly), h)
              end
          | _ => (Raise (KeyError "Week"), h)
          end
      end
  end.

(** ** The pivot of lines 190-198 and 208-216 *)

Record TimeBucketRow : Type := mkBucket {
  Period : string;
  bucket_type : PaymentType;
  sumAmount : Z
}.

Record PivotRow : Type := mkPivotRow {
  pv_Period : string;
  pv_CASH : Z;
  pv_ONLINE : Z;
  pv_OTHER : Z;
  pv_Total : Z
}.

(** [pd.pivot_table(..., index='Period', columns='Payment Type',
    aggfunc='sum', fill_value=0)]: the column labels found in the data, and
    one row per period label, both ascending. *)
Record PivotTable : Type := mkPivot {
  pt_columns : list PaymentType;
  pt_rows : list (string * list (PaymentType * Z))
}.

Definition pivot_table (summary : list TimeBucketRow) (fill_value : Z) : PivotTable :=
  let sums := grouped_sum (map (fun b => ((Period b, bucket_type b), sumAmount b)) summary) in
  let index := sorted_keys (map Period summary) in
  let cols := sorted_keys (map bucket_type summary) in
  mkPivot cols
    (map (fun p => (p, map (fun t => (t, match assoc (p, t) sums with
                                         | Some v => v
                                         | None => fill_value
                                         end)) cols)) index).

Definition cell_of (t : PaymentType) (r : list (PaymentType * Z)) : Z :=
  match assoc t r with
  | Some v => v
  | None => 0
  end.

(** [pivot[['CASH', 'ONLINE', 'OTHER']].sum(axis=1)] stored as "Total";
    selecting a label that is not a column is a KeyError. *)
Definition add_total (p : PivotTable) : result (list PivotRow) :=
  match filter (fun t => negb (existsb (key_eqb t) (pt_columns p))) [CASH; ONLINE; OTHER] with
  | [] =>
      Ok (map (fun r =>
                 let c := cell_of CASH (snd r) in
                 let o := cell_of ONLINE (snd r) in
                 let x := cell_of OTHER (snd r) in
                 mkPivotRow (fst r) c o x (c + o + x)) (pt_rows p))
  | missing => Raise (KeyError (String.concat ", " (map pt_label missing)))
  end.

Definition pivot (summary : list TimeBucketRow) : result (list PivotRow) :=
  add_total (pivot_table summary 0).

(** ** Vocabulary of the specification *)




(** A reader of plain decimal integers, to run [clean_data] on examples. *)
Definition decimal_literal (s : string) : option Z :=
  option_map Z.of_int (NilZero.int_of_string s).

(** A converter that accepts spreadsheet date cells only. *)
Definition date_cells_only (col : list cell) (c : cell) : option Timestamp :=
  match c with
  | CDate t => Some t
  | _ => None
  end.

(** The three labels [clean_data] reads are each carried by one column, and
    no two columns are already called "Payment Type". *)
Definition has_expected_headers (labels : list cell) : Prop :=
  (exists i, positions "Fees Paid Date" labels 0 = [i]) /\
  (exists j, positions "Payment Details" labels 0 = [j]) /\
  (exists k, positions "Paid Amount" labels 0 = [k]) /\
  (length (positions "Payment Type" labels 0) <= 1)%nat.

(** The record carries a date, and that date is [d], whatever the time of
    day. *)
Definition same_calendar_date (d : date) (r : CleanRecord) : Prop :=
  exists t, feesPaidDate r = Some t /\ ts_date t = d.

(** [Selected P l l']: [l'] is [l] with exactly the elements satisfying [P]
    kept, in the order of [l]. *)
Inductive Selected {A : Type} (P : A -> Prop) : list A -> list A -> Prop :=
| Selected_nil : Selected P [] []
| Selected_keep x l l' : P x -> Selected P l l' -> Selected P (x :: l) (x :: l')
| Selected_skip x l l' : ~ P x -> Selected P l l' -> Selected P (x :: l) l'.

Definition nsum (l : list nat) : nat := fold_right Nat.add 0%nat l.

(** The labels of a list in the order in which they first appear. *)
Fixpoint first_seen (l : list string) : list string :=
  match l with
  | [] => []
  | x :: l' => x :: filter (fun y => negb (String.eqb x y)) (first_seen l')
  end.

(** Text order: code point by code point, a proper prefix first. *)
Definition label_lt (a b : string) : Prop := String.compare a b = Lt.


(** ** main: pages and what they show *)

(** The choices of the sidebar radio (lines 91-94). *)
Definition radio_pages : list string :=
  ["Data Export"; "Daily Analytics"; "Advanced Analytics"].

Inductive Branch : Type :=
| ExportBranch
| DailyBranch
| TimeBranch
| AdvancedBranch
| NoBranch.

(** The [if page == ... elif ...] chain of lines 107, 158, 183 and 224. *)
Definition branch_of (page : string) : Branch :=
  if String.eqb page "Data Export" then ExportBranch
  else if String.eqb page "Daily Analytics" then DailyBranch
  else if String.eqb page "Time-based Analysis" then TimeBranch
  else if String.eqb page "Advanced Analytics" then AdvancedBranch
  else NoBranch.

(** What the "Data Export" page shows (lines 138-144): nothing without a
    date or when no record has it, else the summary, the count of the
    "Found ... records" line and the records. *)
Record ExportView : Type := mkExportView {
  ev_summary : list SummaryRow;
  ev_found : nat;
  ev_records : list CleanRecord
}.

Definition data_export (df : list CleanRecord) (selected_date : option date)
  : option ExportView :=
  match selected_date with
  | None => None
  | Some d =>
      let filtered_df := get_data_by_date df d in
      match filtered_df with
      | [] => None
      | _ => Some (mkExportView (display_payment_summary_table filtered_df (Some d))
                                (length filtered_df) filtered_df)
      end
  end.






(** ** More vocabulary for the properties *)

Definition has_date (r : CleanRecord) : bool :=
  match feesPaidDate r with
  | Some _ => true
  | None => false
  end.



(** The record falls in ISO week [w], has calendar year [y] and type [t]. *)
Definition in_week (k : Z * Z * PaymentType) (r : CleanRecord) : bool :=
  match dt_year r, dt_week r with
  | Some y, Some w => key_eqb (y, w, paymentType r) k
  | _, _ => false
  end.



(** The keyed row a record gives to the weekly [groupby], if any. *)
Definition weekly_rows (r : CleanRecord) : list (Z * Z * PaymentType * Z) :=
  match dt_year r, dt_week r with
  | Some y, Some w => [((y, w, paymentType r), paidAmount r)]
  | _, _ => []
  end.


(** * Properties *)

(** ** Key orders are strict total orders *)

#[export] Instance Z_KeyOrderLaws : KeyOrderLaws Z.
Proof.
  split; unfold key_cmp, Z_KeyOrder.
  - intros a b. apply Z.compare_eq.
  - apply Z.compare_refl.
  - intros a b. apply Z.compare_antisym.
  - intros a b c. rewrite !Z.compare_lt_iff. lia.
Qed.

#[export] Instance string_KeyOrderLaws : KeyOrderLaws string.
Proof.
  split; unfold key_cmp, string_KeyOrder.
  - intros a b. apply String_as_OT.cmp_eq.
  - intros a. apply String_as_OT.cmp_eq. reflexivity.
  - intros a b. apply String_as_OT.cmp_antisym.
  - intros a b c Hab Hbc. apply String_as_OT.cmp_lt.
    apply String_as_OT.lt_trans with b; apply String_as_OT.cmp_lt; assumption.
Qed.

#[export] Instance PaymentType_KeyOrderLaws : KeyOrderLaws PaymentType.
Proof.
  split.
  - intros [] []; vm_compute; congruence.
  - intros []; reflexivity.
  - intros [] []; reflexivity.
  - intros [] [] []; vm_compute; congruence.
Qed.

#[export] Instance pair_KeyOrderLaws {A B} `{KeyOrderLaws A} `{KeyOrderLaws B}
  : KeyOrderLaws (A * B).
Proof.
  split; unfold key_cmp, pair_KeyOrder.
  - intros [a1 a2] [b1 b2]; simpl.
    destruct (key_cmp a1 b1) eqn:E1; try discriminate.
    intros E2. apply key_cmp_eq in E1, E2. congruence.
  - intros [a1 a2]; simpl. rewrite !key_cmp_refl. reflexivity.
  - intros [a1 a2] [b1 b2]; simpl.
    rewrite (key_cmp_antisym a1 b1), (key_cmp_antisym a2 b2).
    destruct (key_cmp b1 a1); reflexivity.
  - intros [a1 a2] [b1 b2] [c1 c2]; simpl.
    destruct (key_cmp a1 b1) eqn:E1; try discriminate;
      destruct (key_cmp b1 c1) eqn:E2; try discriminate; intros Hab Hbc.
    + apply key_cmp_eq in E1, E2. subst. rewrite key_cmp_refl.
      eapply key_cmp_trans; eassumption.
    + apply key_cmp_eq in E1. subst. rewrite E2. reflexivity.
    + apply key_cmp_eq in E2. subst. rewrite E1. reflexivity.
    + rewrite (key_cmp_trans _ _ _ E1 E2). reflexivity.
Qed.

Section GroupByFacts.

Context {K V : Type} `{KeyOrderLaws K}.

Lemma key_eqb_eq (a b : K) : key_eqb a b = true <-> a = b.
Proof.
  unfold key_eqb. split.
  - destruct (key_cmp a b) eqn:E; try discriminate.
    intros _. apply key_cmp_eq, E.
  - intros ->. rewrite key_cmp_refl. reflexivity.
Qed.

Lemma key_eqb_refl (a : K) : key_eqb a a = true.
Proof. apply key_eqb_eq. reflexivity. Qed.

Lemma key_eqb_neq (a b : K) : a <> b -> key_eqb a b = false.
Proof.
  intros Hne. destruct (key_eqb a b) eqn:E; [|reflexivity].
  apply key_eqb_eq in E. contradiction.
Qed.

Lemma key_lt_irrefl (a : K) : ~ key_lt a a.
Proof. unfold key_lt. rewrite key_cmp_refl. discriminate. Qed.

Lemma in_insert_key (k : K) ks x : In x (insert_key k ks) <-> x = k \/ In x ks.
Proof.
  induction ks as [|h t IH]; simpl.
  - intuition.
  - destruct (key_cmp k h) eqn:E; simpl.
    + apply key_cmp_eq in E. subst. intuition.
    + intuition.
    + rewrite IH. intuition.
Qed.

Lemma insert_key_sorted (k : K) ks :
  StronglySorted key_lt ks -> StronglySorted key_lt (insert_key k ks).
Proof.
  induction 1 as [|h t Hs IH Hall]; simpl.
  - repeat constructor.
  - destruct (key_cmp k h) eqn:E.
    + constructor; assumption.
    + constructor; [constructor; assumption|].
      constructor; [exact E|].
      rewrite Forall_forall in *. intros x Hx.
      eapply key_cmp_trans; [exact E | apply Hall, Hx].
    + constructor; [exact IH|].
      rewrite Forall_forall in *. intros x Hx.
      apply in_insert_key in Hx. destruct Hx as [->|Hx]; [|apply Hall, Hx].
      unfold key_lt. rewrite key_cmp_antisym, E. reflexivity.
Qed.

Lemma sorted_keys_sorted (l : list K) : StronglySorted key_lt (sorted_keys l).
Proof.
  induction l; simpl; [constructor | apply insert_key_sorted; assumption].
Qed.

Lemma in_sorted_keys (l : list K) x : In x (sorted_keys l) <-> In x l.
Proof.
  induction l; simpl; [reflexivity|].
  rewrite in_insert_key, IHl. intuition.
Qed.

Lemma sorted_NoDup (l : list K) : StronglySorted key_lt l -> NoDup l.
Proof.
  induction 1 as [|h t Hs IH Hall]; constructor; [|assumption].
  intros Hin. rewrite Forall_forall in Hall.
  exact (key_lt_irrefl h (Hall h Hin)).
Qed.

Lemma sorted_keys_NoDup (l : list K) : NoDup (sorted_keys l).
Proof. apply sorted_NoDup, sorted_keys_sorted. Qed.

(** A row changes the group of its own key only. *)
Lemma members_cons (k0 : K) (v : V) rows k :
  members k ((k0, v) :: rows)
  = if key_eqb k0 k then v :: members k rows else members k rows.
Proof. unfold members; simpl. destruct (key_eqb k0 k); reflexivity. Qed.


Lemma groups_skip (k0 : K) (v : V) rows ks :
  ~ In k0 ks ->
  map (fun k => members k ((k0, v) :: rows)) ks = map (fun k => members k rows) ks.
Proof.
  intros Hn. apply map_ext_in. intros k Hk.
  rewrite members_cons, key_eqb_neq; [reflexivity|].
  intros ->. contradiction.
Qed.

Lemma groups_add (k0 : K) (v : V) rows ks :
  NoDup ks -> In k0 ks ->
  Permutation (concat (map (fun k => members k ((k0, v) :: rows)) ks))
              (v :: concat (map (fun k => members k rows) ks)).
Proof.
  induction 1 as [|k ks Hk Hnd IH]; simpl; [contradiction|].
  intros [->|Hin].
  - rewrite members_cons, key_eqb_refl, groups_skip by assumption.
    reflexivity.
  - rewrite members_cons, key_eqb_neq by (intros ->; contradiction).
    rewrite (IH Hin). apply Permutation_sym, Permutation_middle.
Qed.

Lemma groups_partition (rows : list (K * V)) ks :
  NoDup ks -> (forall k, In k (map fst rows) -> In k ks) ->
  Permutation (concat (map (fun k => members k rows) ks)) (map snd rows).
Proof.
  intros Hnd. induction rows as [|[k0 v] rows IH]; simpl; intros Hcov.
  - clear. induction ks; simpl; [constructor | assumption].
  - rewrite groups_add by auto. constructor. apply IH. auto.
Qed.

(** The groups hold every row value exactly once. *)
Lemma groupby_partition (rows : list (K * V)) :
  Permutation (concat (map snd (groupby rows))) (map snd rows).
Proof.
  unfold groupby. rewrite map_map. simpl.
  apply groups_partition; [apply sorted_keys_NoDup|].
  intros k. apply in_sorted_keys.
Qed.

Lemma groupby_keys (rows : list (K * V)) :
  map fst (groupby rows) = sorted_keys (map fst rows).
Proof. unfold groupby. rewrite map_map. simpl. apply map_id. Qed.


End GroupByFacts.

(** ** Text *)

Lemma lower_upper_char c : lower_char (upper_char c) = lower_char c.
Proof. destruct c as [[] [] [] [] [] [] [] []]; reflexivity. Qed.

Lemma upper_lower_char c : upper_char (lower_char c) = upper_char c.
Proof. destruct c as [[] [] [] [] [] [] [] []]; reflexivity. Qed.


Lemma casefold_upper s : casefold (upper s) = casefold s.
Proof.
  unfold casefold, upper.
  induction s as [|c s IH]; simpl; [reflexivity|].
  rewrite lower_upper_char, IH. reflexivity.
Qed.

Lemma upper_casefold s : upper (casefold s) = upper s.
Proof.
  unfold casefold, upper.
  induction s as [|c s IH]; simpl; [reflexivity|].
  rewrite upper_lower_char, IH. reflexivity.
Qed.







(** ** Cleaning *)



Section CleaningFacts.

Variable datetime_of : list cell -> cell -> option Timestamp.
Variable numeric_of : string -> option Z.

Lemma assemble_rows rws : forall ds ts ams,
  length ds = length rws -> length ts = length rws -> length ams = length rws ->
  map source (assemble rws ds ts ams) = rws.
Proof.
  induction rws as [|r rws IH]; intros [|d ds] [|t ts] [|a ams]; simpl;
    try discriminate; try reflexivity.
  intros [= Hd] [= Ht] [= Ha]. f_equal. apply IH; assumption.
Qed.

Lemma series_unique labels name rws j :
  positions name labels 0 = [j] ->
  series labels name rws = Ok (map (fun r => nth j r CNull) rws).
Proof. unfold series. intros ->. reflexivity. Qed.

(** C2. A sheet with two leading rows and N data rows, whose second row
    names the three expected columns, is cleaned into exactly N records,
    the i-th built from the i-th data row, whatever the date and number
    parsers make of the cells. *)
Theorem cleaning_keeps_every_row (r0 labels : list cell) (data : list (list cell)) :
  has_expected_headers labels ->
  exists recs,
    clean_data datetime_of numeric_of (r0 :: labels :: data) = Ok recs /\
    length recs = length data /\
    map source recs = data.
Proof.
  intros ([i Hi] & [j Hj] & [k Hk] & Hpt).
  unfold clean_data. cbn [nth_error skipn].
  rewrite (series_unique _ _ _ _ Hi), (series_unique _ _ _ _ Hj),
    (series_unique _ _ _ _ Hk). simpl rbind.
  assert (Hsrc : map source
            (assemble data
               (to_datetime datetime_of (map (fun r => nth i r CNull) data))
               (map payment_type_of (map (fun r => nth j r CNull) data))
               (map (coerceAmount numeric_of) (map (fun r => nth k r CNull) data)))
            = data).
  { apply assemble_rows; unfold to_datetime; rewrite !length_map; reflexivity. }
  pose proof (f_equal (@length _) Hsrc) as Hlen. rewrite length_map in Hlen.
  destruct (positions "Payment Type" labels 0) as [|a [|b l]].
  - eexists. split; [reflexivity|]. split; [exact Hlen | exact Hsrc].
  - eexists. split; [reflexivity|]. split; [exact Hlen | exact Hsrc].
  - simpl in Hpt. lia.
Qed.


End CleaningFacts.

Lemma cleaning_keeps_every_row_witness :
  exists recs,
    clean_data date_cells_only decimal_literal
      [ [CStr "School Fees"];
        [CStr "Fees Paid Date"; CStr "Payment Details"; CStr "Paid Amount"];
        [CDate (mkTimestamp (mkDate 2024 1 5) 0); CStr "Cash"; CStr "100"];
        [CStr "unknown"; CNull; CStr "N/A"] ] = Ok recs /\
    length recs = 2%nat /\
    map source recs =
      [ [CDate (mkTimestamp (mkDate 2024 1 5) 0); CStr "Cash"; CStr "100"];
        [CStr "unknown"; CNull; CStr "N/A"] ].
Proof.
  apply (cleaning_keeps_every_row date_cells_only decimal_literal).
  unfold has_expected_headers. simpl.
  repeat split; try (eexists; reflexivity). lia.
Defined.


(** ** Date filter *)

Lemma date_eqb_eq a b : date_eqb a b = true <-> a = b.
Proof.
  destruct a as [y m d], b as [y' m' d']; unfold date_eqb; simpl.
  rewrite !andb_true_iff, !Z.eqb_eq. split.
  - intros [[-> ->] ->]. reflexivity.
  - intros [= -> -> ->]. auto.
Qed.

Lemma on_date_spec d r : on_date d r = true <-> same_calendar_date d r.
Proof.
  unfold on_date, same_calendar_date, dt_date.
  destruct (feesPaidDate r) as [t|]; simpl.
  - rewrite date_eqb_eq. split.
    + intros Hd. exists t. auto.
    + intros (t' & [= <-] & Hd). exact Hd.
  - split; [discriminate|]. intros (t' & Ht & _). discriminate.
Qed.

Lemma on_date_absent d r : feesPaidDate r = None -> on_date d r = false.
Proof. unfold on_date. intros ->. reflexivity. Qed.

Lemma filter_Selected {A} (P : A -> Prop) (f : A -> bool) :
  (forall x, f x = true <-> P x) -> forall l, Selected P l (filter f l).
Proof.
  intros Hf. induction l as [|x l IH]; simpl; [constructor|].
  destruct (f x) eqn:E.
  - apply Selected_keep; [apply Hf, E | exact IH].
  - apply Selected_skip; [|exact IH]. rewrite <- Hf, E. discriminate.
Qed.

(** C5. [get_data_by_date] keeps exactly the records whose date is the
    target calendar date, in input order, whatever their time of day; a
    record without a date is never kept; when nothing matches the result is
    the empty sequence. *)
Theorem date_filter_exact (df : list CleanRecord) (d : date) :
  Selected (same_calendar_date d) df (get_data_by_date df d) /\
  (forall r s, In r df -> feesPaidDate r = Some (mkTimestamp d s) ->
               In r (get_data_by_date df d)) /\
  (forall r, feesPaidDate r = None -> ~ In r (get_data_by_date df d)) /\
  ((forall r, In r df -> ~ same_calendar_date d r) -> get_data_by_date df d = []).
Proof.
  unfold get_data_by_date. repeat split.
  - apply filter_Selected. intros r. apply on_date_spec.
  - intros r s Hin Hr. apply filter_In. split; [exact Hin|].
    apply on_date_spec. exists (mkTimestamp d s). auto.
  - intros r Hr Hin. apply filter_In in Hin. destruct Hin as [_ Hin].
    rewrite (on_date_absent d r Hr) in Hin. discriminate.
  - intros Hnone. induction df as [|r df IH]; simpl; [reflexivity|].
    destruct (on_date d r) eqn:E.
    + exfalso. apply (Hnone r); [left; reflexivity | apply on_date_spec, E].
    + apply IH. intros r' Hr'. apply Hnone. right. exact Hr'.
Qed.

Lemma date_filter_exact_witness :
  get_data_by_date
    [mkRecord [] (Some (mkTimestamp (mkDate 2024 1 5) 0)) CASH 100;
     mkRecord [] None OTHER 7]
    (mkDate 2024 2 1) = [].
Proof.
  apply (date_filter_exact _ (mkDate 2024 2 1)).
  intros r [<- | [<- | []]] (t & Ht & Hd); simpl in Ht.
  - injection Ht as <-. discriminate Hd.
  - discriminate Ht.
Defined.

(** ** Category summary *)

Lemma zsum_app l1 l2 : zsum (l1 ++ l2) = zsum l1 + zsum l2.
Proof. induction l1; simpl; lia. Qed.

Lemma zsum_perm l1 l2 : Permutation l1 l2 -> zsum l1 = zsum l2.
Proof. induction 1; simpl; lia. Qed.

Lemma zsum_concat ls : zsum (map zsum ls) = zsum (concat ls).
Proof. induction ls; simpl; [|rewrite zsum_app]; lia. Qed.

Lemma nsum_concat {A} (ls : list (list A)) :
  nsum (map (@length A) ls) = length (concat ls).
Proof. induction ls; simpl; [|rewrite length_app]; lia. Qed.


Lemma summary_of_groups (rws : list (PaymentType * Z)) :
  zsum (map sm_total
          (map (fun g => mkSummary (fst g) (zsum (snd g)) (length (snd g)))
               (groupby rws))) = zsum (map snd rws) /\
  nsum (map sm_count
          (map (fun g => mkSummary (fst g) (zsum (snd g)) (length (snd g)))
               (groupby rws))) = length rws.
Proof.
  rewrite !map_map. simpl. split.
  - rewrite <- (map_map snd zsum), zsum_concat.
    apply zsum_perm, groupby_partition.
  - rewrite <- (map_map snd (@length Z)), nsum_concat.
    rewrite (Permutation_length (groupby_partition rws)). apply length_map.
Qed.


(** ** Records without a date *)

Lemma weekly_keyed_own df :
  weekly_keyed df (map dt_week df)
  = flat_map (fun r => match dt_year r, dt_week r with
                       | Some y, Some w => [((y, w, paymentType r), paidAmount r)]
                       | _, _ => []
                       end) df.
Proof.
  unfold weekly_keyed. induction df as [|r df IH]; simpl; [reflexivity|].
  rewrite IH. reflexivity.
Qed.



(** ** Time bucketer *)

(** Line 38: both date keys are named "Fees Paid Date", so turning the
    index levels into columns is refused. *)
Lemma monthly_summary_raises df :
  monthly_summary df = Raise (ValueError "cannot insert Fees Paid Date, already exists").
Proof. reflexivity. Qed.

(** Line 54: the weekly frame has no column "Year". *)
Lemma weekly_summary_raises df week :
  weekly_groups df week <> [] -> weekly_summary df week = Raise (KeyError "Year").
Proof.
  unfold weekly_summary. destruct (weekly_groups df week) as [|[[[y w] t] a] gs].
  - intros Hne. contradiction.
  - reflexivity.
Qed.

(** With the columns the lambdas ask for, the labels are the documented
    ones; the weekly label takes the calendar year next to the ISO week. *)
Example month_label_example :
  month_label ["Year"; "Month"; "Payment Type"; "Paid Amount"]
              [CNum 2024; CNum 1; CStr "CASH"; CNum 100] = Ok "January 2024".
Proof. reflexivity. Qed.

Example week_label_example :
  week_label ["Year"; "Week"; "Payment Type"; "Paid Amount"]
             [CNum 2021; CNum (iso_week (mkDate 2021 1 1)); CStr "CASH"; CNum 100]
  = Ok "Week 53, 2021".
Proof. reflexivity. Qed.

Lemma create_time_summaries_store df h : snd (create_time_summaries df h) = h.
Proof.
  unfold create_time_summaries. destruct (h !! df); [|reflexivity].
  rewrite monthly_summary_raises. reflexivity.
Qed.

(** C8 fails on the code: [create_time_summaries] raises on every dataset,
    so no bucket row and no period label is ever produced. *)
Theorem period_labels_never_produced (df : nat) (h : gmap nat DataFrame) :
  exists e, fst (create_time_summaries df h) = Raise e.
Proof.
  unfold create_time_summaries. destruct (h !! df).
  - rewrite monthly_summary_raises. eexists. reflexivity.
  - eexists. reflexivity.
Qed.

Example create_time_summaries_one_record :
  fst (create_time_summaries 0%nat
         {[ 0%nat := mkDataFrame
                      [mkRecord [] (Some (mkTimestamp (mkDate 2024 1 5) 0)) CASH 100]
                      None ]})
  = Raise (ValueError "cannot insert Fees Paid Date, already exists").
Proof. reflexivity. Qed.

(** ** The week column and the shared dataset *)




(** ** Pivot *)

Lemma existsb_key_eqb {K} `{KeyOrderLaws K} (k : K) ks :
  existsb (key_eqb k) ks = true <-> In k ks.
Proof.
  rewrite existsb_exists. split.
  - intros (x & Hx & E). apply key_eqb_eq in E. subst. exact Hx.
  - intros Hk. exists k. split; [exact Hk | apply key_eqb_refl].
Qed.

Lemma add_total_ok p out :
  add_total p = Ok out -> map pv_Period out = map fst (pt_rows p).
Proof.
  unfold add_total.
  destruct (filter _ [CASH; ONLINE; OTHER]); [|discriminate].
  intros [= <-]. rewrite map_map. reflexivity.
Qed.

Lemma pivot_periods summary out :
  pivot summary = Ok out -> map pv_Period out = sorted_keys (map Period summary).
Proof.
  intros Hp. apply add_total_ok in Hp. rewrite Hp. simpl.
  rewrite map_map. simpl. apply map_id.
Qed.

(** C1 fails on the code: as soon as one payment type occurs in no bucket
    row, the pivot has no column of that name and adding the total raises;
    no row is emitted, zero-filled or otherwise. *)
Theorem pivot_needs_every_type (summary : list TimeBucketRow) (t : PaymentType) :
  ~ In t (map bucket_type summary) -> exists e, pivot summary = Raise e.
Proof.
  intros Ht. unfold pivot, add_total. cbn [pivot_table pt_columns].
  destruct (filter _ [CASH; ONLINE; OTHER]) as [|m ms] eqn:E.
  - exfalso.
    assert (Hin : In t (filter (fun t0 => negb (existsb (key_eqb t0)
                     (sorted_keys (map bucket_type summary)))) [CASH; ONLINE; OTHER])).
    { apply filter_In. split; [destruct t; simpl; auto|].
      destruct (existsb _ _) eqn:Ex; [|reflexivity].
      apply existsb_key_eqb in Ex. apply (proj1 (in_sorted_keys _ _)) in Ex.
      destruct (Ht Ex). }
    rewrite E in Hin. destruct Hin.
  - eexists. reflexivity.
Qed.

Lemma pivot_needs_every_type_witness :
  exists e, pivot [mkBucket "January 2024" CASH 100] = Raise e.
Proof.
  apply (pivot_needs_every_type [mkBucket "January 2024" CASH 100] ONLINE).
  simpl. intros [H | []]. discriminate H.
Defined.

(** The example of the specification: no OTHER payment anywhere. *)
Example pivot_spec_example :
  pivot [mkBucket "January 2024" CASH 100; mkBucket "January 2024" ONLINE 50;
         mkBucket "February 2024" CASH 20] = Raise (KeyError "OTHER").
Proof. reflexivity. Qed.






(** C9, as amended. The pivot rows come in ascending text order of their
    period label, one row per distinct label of the bucket rows, whatever
    the order of the bucket rows. *)
Theorem pivot_rows_sorted (summary : list TimeBucketRow) (out : list PivotRow) :
  pivot summary = Ok out ->
  StronglySorted label_lt (map pv_Period out) /\
  (forall p, In p (map pv_Period out) <-> In p (map Period summary)).
Proof.
  intros Hp. rewrite (pivot_periods _ _ Hp). split.
  - exact (sorted_keys_sorted (map Period summary)).
  - intros p. apply in_sorted_keys.
Qed.

Lemma pivot_rows_sorted_witness :
  StronglySorted label_lt ["April 2024"; "January 2024"].
Proof.
  apply (pivot_rows_sorted
           [mkBucket "January 2024" CASH 100; mkBucket "January 2024" ONLINE 50;
            mkBucket "January 2024" OTHER 5; mkBucket "April 2024" CASH 20]
           [mkPivotRow "April 2024" 20 0 0 20; mkPivotRow "January 2024" 100 50 5 155]).
  reflexivity.
Defined.

(** C9 as stated: the rows would follow the order in which the periods
    first appear among the bucket rows. January comes first in the input
    below and second in the pivot. *)
Lemma pivot_rows_resorted :
  ~ (forall summary out, pivot summary = Ok out ->
                         map pv_Period out = first_seen (map Period summary)).
Proof.
  intros Hclaim.
  specialize (Hclaim
                [mkBucket "January 2024" CASH 100; mkBucket "January 2024" ONLINE 50;
                 mkBucket "January 2024" OTHER 5; mkBucket "April 2024" CASH 20]
                [mkPivotRow "April 2024" 20 0 0 20; mkPivotRow "January 2024" 100 50 5 155]
                eq_refl).
  discriminate Hclaim.
Qed.


(** * Further properties of the code *)

(** ** Sorted keys and reordering of rows *)

Section GroupByOrder.

Context {K V : Type} `{KeyOrderLaws K}.








End GroupByOrder.



Lemma grouped_sum_keys {K} `{KeyOrderLaws K} (rws : list (K * Z)) :
  map fst (grouped_sum rws) = sorted_keys (map fst rws).
Proof.
  unfold grouped_sum. rewrite map_map. simpl. apply groupby_keys.
Qed.

(** ** The payment summary table *)

Lemma summary_with_date df d :
  display_payment_summary_table df (Some d)
  = display_payment_summary_table (get_data_by_date df d) None.
Proof. reflexivity. Qed.







(** ** The pages of main *)

Lemma filter_idem {A} (f : A -> bool) (l : list A) : filter f (filter f l) = filter f l.
Proof.
  induction l as [|x l IH]; simpl; [reflexivity|].
  destruct (f x) eqn:E; simpl; [rewrite E, IH|]; auto.
Qed.

Lemma summary_of_filtered df d :
  display_payment_summary_table (get_data_by_date df d) (Some d)
  = display_payment_summary_table df (Some d).
Proof.
  unfold display_payment_summary_table, get_data_by_date.
  rewrite filter_idem. reflexivity.
Qed.

Lemma summary_counts (R : list CleanRecord) :
  nsum (map sm_count (display_payment_summary_table R None)) = length R /\
  zsum (map sm_total (display_payment_summary_table R None)) = zsum (map paidAmount R).
Proof.
  unfold display_payment_summary_table.
  destruct (summary_of_groups (map (fun r => (paymentType r, paidAmount r)) R))
    as [Hs Hc].
  split.
  - rewrite Hc. apply length_map.
  - rewrite Hs, map_map. reflexivity.
Qed.

(** X3. When the export page shows anything, it shows the records of the
    selected date, at least one of them; the "Found" count is their number;
    filtering them a second time inside the summary changes nothing; and
    the transaction counts of the summary add up to the "Found" count. *)
Theorem export_page_consistent (df : list CleanRecord) (d : date) (v : ExportView) :
  data_export df (Some d) = Some v ->
  ev_records v = get_data_by_date df d /\
  ev_records v <> [] /\
  ev_found v = length (ev_records v) /\
  ev_summary v = display_payment_summary_table df (Some d) /\
  nsum (map sm_count (ev_summary v)) = ev_found v.
Proof.
  unfold data_export. pose proof (summary_of_filtered df d) as Hsf.
  destruct (get_data_by_date df d) as [|r rs] eqn:E; [discriminate|].
  intros [= <-]. cbn [ev_records ev_found ev_summary].
  split; [reflexivity|]. split; [discriminate|]. split; [reflexivity|].
  split; [exact Hsf|].
  rewrite Hsf, summary_with_date, E. apply (summary_counts (r :: rs)).
Qed.

Lemma export_page_consistent_witness :
  nsum (map sm_count [mkSummary CASH 100 1]) = 1%nat.
Proof.
  apply (export_page_consistent
           [mkRecord [] (Some (mkTimestamp (mkDate 2024 1 5) 0)) CASH 100;
            mkRecord [] None OTHER 7]
           (mkDate 2024 1 5)
           (mkExportView [mkSummary CASH 100 1] 1
              [mkRecord [] (Some (mkTimestamp (mkDate 2024 1 5) 0)) CASH 100])).
  reflexivity.
Defined.






(** X6. Whichever page the sidebar offers, the branch taken is the export,
    the daily or the advanced one: the time-based analysis of lines 183-222,
    hence [create_time_summaries] and the pivots, is never run. *)
Theorem time_page_unreachable (page : string) :
  In page radio_pages ->
  branch_of page <> TimeBranch /\ branch_of page <> NoBranch.
Proof.
  intros [<- | [<- | [<- | []]]]; split; discriminate.
Qed.

Lemma time_page_unreachable_witness :
  branch_of "Advanced Analytics" <> TimeBranch /\
  branch_of "Advanced Analytics" <> NoBranch.
Proof.
  apply time_page_unreachable. simpl. auto.
Defined.

(** ** Monthly and weekly groups *)

Lemma weekly_keyed_rows df : weekly_keyed df (map dt_week df) = flat_map weekly_rows df.
Proof. apply weekly_keyed_own. Qed.




Lemma weekly_key_present k df :
  In k (map fst (flat_map weekly_rows df)) <-> exists r, In r df /\ in_week k r = true.
Proof.
  unfold weekly_rows, in_week. rewrite in_map_iff. split.
  - intros ([k' a] & <- & Hin). apply in_flat_map in Hin.
    destruct Hin as (r & Hr & Hin). exists r. split; [exact Hr|].
    destruct (dt_year r) as [y|], (dt_week r) as [w|]; try destruct Hin as [].
    + injection H as <- _. apply key_eqb_refl.
    + destruct H.
  - intros (r & Hr & Hk).
    destruct (dt_year r) as [y|] eqn:Ey; [|discriminate].
    destruct (dt_week r) as [w|] eqn:Ew; [|discriminate].
    apply key_eqb_eq in Hk. exists (k, paidAmount r). split; [reflexivity|].
    apply in_flat_map. exists r. split; [exact Hr|].
    rewrite Ey, Ew, Hk. left. reflexivity.
Qed.











(** X11. Had line 38 gone through, the weekly labelling would still fail:
    as soon as one record has a date, the weekly frame has a row, its
    columns are "Fees Paid Date", "Week", "Payment Type" and "Paid Amount",
    and the lambda of line 54 raises KeyError for "Year". *)
Theorem weekly_labels_need_year (df : list CleanRecord) :
  (exists r, In r df /\ has_date r = true) ->
  weekly_summary df (map dt_week df) = Raise (KeyError "Year").
Proof.
  intros (r & Hr & Hd). apply weekly_summary_raises. intros Hnil.
  assert (Hk : In (match dt_year r, dt_week r with
                   | Some y, Some w => (y, w, paymentType r)
                   | _, _ => (0, 0, paymentType r)
                   end) (map fst (weekly_groups df (map dt_week df)))).
  { unfold weekly_groups. rewrite weekly_keyed_rows, grouped_sum_keys.
    apply in_sorted_keys, weekly_key_present. exists r. split; [exact Hr|].
    unfold has_date in Hd. unfold in_week, dt_year, dt_week.
    destruct (feesPaidDate r); [|discriminate]. simpl. apply key_eqb_refl. }
  rewrite Hnil in Hk. destruct Hk.
Qed.

Lemma weekly_labels_need_year_witness :
  weekly_summary [mkRecord [] (Some (mkTimestamp (mkDate 2024 1 5) 0)) CASH 100]
                 (map dt_week [mkRecord [] (Some (mkTimestamp (mkDate 2024 1 5) 0)) CASH 100])
  = Raise (KeyError "Year").
Proof.
  apply weekly_labels_need_year.
  exists (mkRecord [] (Some (mkTimestamp (mkDate 2024 1 5) 0)) CASH 100).
  split; [left; reflexivity | reflexivity].
Defined.

(** X12. Attaching the week column never changes the records of any
    dataset in the store, and attaching it a second time changes nothing. *)
Theorem attach_week_keeps_records (df : nat) (h : gmap nat DataFrame) :
  (forall l, option_map df_records (attach_week df h !! l)
             = option_map df_records (h !! l)) /\
  attach_week df (attach_week df h) = attach_week df h.
Proof.
  unfold attach_week. destruct (h !! df) as [f|] eqn:E.
  - split.
    + intros l. destruct (Nat.eq_dec df l) as [<-|Hne].
      * rewrite lookup_insert_eq, E. reflexivity.
      * rewrite lookup_insert_ne by exact Hne. reflexivity.
    + rewrite lookup_insert_eq. simpl. apply insert_insert_eq.
  - split; [reflexivity|]. rewrite E. reflexivity.
Qed.

(** ** More on the pivot *)











(** ** More on cleaning *)

Lemma positions_absent name labels : forall i,
  ~ In (CStr name) labels -> positions name labels i = [].
Proof.
  induction labels as [|l ls IH]; intros i Hn; simpl; [reflexivity|].
  assert (Hls : ~ In (CStr name) ls) by (intros Hin; apply Hn; right; exact Hin).
  destruct l as [|z|s|t]; try (apply IH; exact Hls).
  destruct (String.eqb_spec s name) as [->|Hne]; [|apply IH; exact Hls].
  exfalso. apply Hn. left. reflexivity.
Qed.

Lemma upper_idem s : upper (upper s) = upper s.
Proof. rewrite <- (upper_casefold (upper s)), casefold_upper. apply upper_casefold. Qed.

(** X18. Changing the letter case of a payment detail never changes its
    classification, and each of the three labels classifies to itself, so
    classifying already classified values changes nothing. *)
Theorem classification_case_blind (s : string) (t : PaymentType) :
  classify (CStr (upper s)) = classify (CStr s) /\
  classify (CStr (casefold s)) = classify (CStr s) /\
  payment_type_of (CStr (pt_label t)) = t.
Proof.
  unfold classify. simpl py_str. rewrite upper_idem, upper_casefold.
  split; [reflexivity|]. split; [reflexivity|]. destruct t; reflexivity.
Qed.

Section CleaningMore.

Variable datetime_of : list cell -> cell -> option Timestamp.
Variable numeric_of : string -> option Z.


(** X16. [clean_data] fails with IndexError on a sheet of fewer than two
    rows, and with a KeyError naming the first label that the second row
    lacks, looked for in the order "Fees Paid Date", "Payment Details",
    "Paid Amount" (the last on a sheet without several "Payment Type"
    columns, which fails before). *)
Theorem clean_data_errors (r0 labels : list cell) (data : list (list cell)) :
  clean_data datetime_of numeric_of [] = Raise IndexError /\
  clean_data datetime_of numeric_of [r0] = Raise IndexError /\
  (~ In (CStr "Fees Paid Date") labels ->
   clean_data datetime_of numeric_of (r0 :: labels :: data)
   = Raise (KeyError "Fees Paid Date")) /\
  ((exists i, positions "Fees Paid Date" labels 0 = [i]) ->
   ~ In (CStr "Payment Details") labels ->
   clean_data datetime_of numeric_of (r0 :: labels :: data)
   = Raise (KeyError "Payment Details")) /\
  ((exists i, positions "Fees Paid Date" labels 0 = [i]) ->
   (exists j, positions "Payment Details" labels 0 = [j]) ->
   (length (positions "Payment Type" labels 0) <= 1)%nat ->
   ~ In (CStr "Paid Amount") labels ->
   clean_data datetime_of numeric_of (r0 :: labels :: data)
   = Raise (KeyError "Paid Amount")).
Proof.
  split; [reflexivity|]. split; [reflexivity|].
  unfold clean_data. cbn [nth_error skipn]. unfold series.
  split; [|split].
  - intros Hd. rewrite (positions_absent _ _ 0%nat Hd). reflexivity.
  - intros [i Hi] Hp. rewrite Hi, (positions_absent _ _ 0%nat Hp). reflexivity.
  - intros [i Hi] [j Hj] Hpt Ha.
    rewrite Hi, Hj, (positions_absent _ _ 0%nat Ha). simpl.
    destruct (positions "Payment Type" labels 0) as [|a [|b l]];
      [reflexivity | reflexivity | simpl in Hpt; lia].
Qed.


End CleaningMore.

Lemma clean_data_errors_witness :
  clean_data date_cells_only decimal_literal
    [ [CStr "School Fees"]; [CStr "Date"; CStr "Payment Details"; CStr "Paid Amount"];
      [CNull; CStr "Cash"; CNum 100] ]
  = Raise (KeyError "Fees Paid Date").
Proof.
  apply (clean_data_errors date_cells_only decimal_literal).
  simpl. intros [H | [H | [H | []]]]; discriminate H.
Defined.


(** ** More on the date filter *)

Lemma on_date_unique d d' r : on_date d r = true -> on_date d' r = true -> d = d'.
Proof.
  unfold on_date. destruct (dt_date (feesPaidDate r)) as [x|]; [|discriminate].
  intros Hd Hd'. apply date_eqb_eq in Hd, Hd'. congruence.
Qed.

(** X19. Filtering the result of the date filter again gives the same
    result for the same date and nothing for any other date. *)
Theorem date_filter_twice (df : list CleanRecord) (d d' : date) :
  get_data_by_date (get_data_by_date df d) d'
  = if date_eqb d d' then get_data_by_date df d else [].
Proof.
  unfold get_data_by_date. destruct (date_eqb d d') eqn:E.
  - apply date_eqb_eq in E. subst d'. apply filter_idem.
  - induction df as [|r df IH]; simpl; [reflexivity|].
    destruct (on_date d r) eqn:Hd; simpl; [|exact IH].
    destruct (on_date d' r) eqn:Hd'; [|exact IH].
    rewrite (on_date_unique _ _ _ Hd Hd') in E.
    assert (Hrefl : date_eqb d' d' = true) by (apply date_eqb_eq; reflexivity).
    rewrite Hrefl in E. discriminate E.
Qed.






